(** * File-approval dashboard: the request handlers of [frontend/app.py]
    over the tables of [frontend/models.py].

    The two tables are finite maps from the integer primary key to the
    row; a handler is a function from the database (and the request) to
    the database after [db.session.commit()] and the JSON response. A
    handler whose [try] block raises answers from its [except] branch:
    the session is rolled back, so the database is the one it was given,
    and the response is the 500. The [try] block raises where the Python
    code itself does (on a body that is no JSON object, on [f.agent.ip]
    of a row without agent) and where the driver cannot bind an id to
    the statement. *)

From Stdlib Require Import Ascii.
From stdpp Require Import gmap strings list fin_maps pretty.

Local Open Scope Z_scope.

(** ** Data model ([frontend/models.py]) *)

(** [db.DateTime] values: naive UTC instants. *)
Definition datetime := Z.

(** Row of [Agent]; the [id] column is the key of the table. *)
Record Agent := mkAgent {
  ip : string;
  agent_status : string;
  last_seen : option datetime
}.

(** Row of [FileLog]; the [id] column is the key of the table. [status]
    is a [db.String(20)] column: any string can be stored in it. *)
Record FileLog := mkFileLog {
  filename : string;
  path : string;
  agent_id : Z;
  status : string;
  created_at : option datetime;
  approved_at : option datetime
}.

Record database := mkDb {
  agents : gmap Z Agent;
  files : gmap Z FileLog
}.

(** ** Responses *)

Record file_view := mkView {
  v_id : Z;
  v_filename : string;
  v_path : string;
  v_agent_ip : string;
  v_status : string;
  v_created_at : option datetime
}.

(** The JSON document handed to [jsonify]. *)
Inductive body :=
| Message (m : string)
| Error (m : string)
| FileList (l : list file_view).

(** [jsonify(...), code]; a bare [jsonify(...)] is a 200. *)
Record response := mkResponse {
  code : Z;
  payload : body
}.

Definition ok (b : body) : response := mkResponse 200 b.
Definition bad_request (m : string) : response := mkResponse 400 (Error m).
Definition internal_error : response := mkResponse 500 (Error "Internal server error").

(** ** Requests *)

(** The body of a request to one of the two POST handlers, by what the
    handler's first lines do with it:
    - [NoJson]: [request.get_json()] raises (no body, a body that is
      not JSON, a content type that is not JSON);
    - [NoData]: [get_json()] is falsy ([null], [false], [0], the empty
      string, list or object);
    - [NotContainer]: [true] or a number other than zero, on which
      ['file_ids' not in data] raises [TypeError];
    - [NoFileIds]: ['file_ids' not in data] holds (an object without the
      key, a list without that element, a string without that substring);
    - [NotSubscriptable]: a list with the element ['file_ids'] or a
      string containing it, on which [data['file_ids']] raises [TypeError];
    - [FileIdsNotList]: an object whose ['file_ids'] is not a list;
    - [FileIds l]: an object whose ['file_ids'] is the list [l]. The
      elements of the list are integers (Python's, of any size). *)
Inductive json_request :=
| NoJson
| NoData
| NotContainer
| NoFileIds
| NotSubscriptable
| FileIdsNotList
| FileIds (file_ids : list Z).

(** ** Strings: [str.strip] and the column operator [contains] *)

(** [str.isspace] on one character; characters are code points below
    256, where the white space is TAB..CR, FS..US, space, NEL and NBSP. *)
Definition isspace (c : ascii) : bool :=
  let n := N_of_ascii c in
  ((9 <=? n) && (n <=? 13) || (28 <=? n) && (n <=? 32)
   || (n =? 133) || (n =? 160))%N.

Fixpoint lstrip (s : string) : string :=
  match s with
  | EmptyString => EmptyString
  | String c s' => if isspace c then lstrip s' else s
  end.

Fixpoint rstrip (s : string) : string :=
  match s with
  | EmptyString => EmptyString
  | String c s' =>
      match rstrip s' with
      | EmptyString => if isspace c then EmptyString else String c EmptyString
      | r => String c r
      end
  end.

(** [s.strip()] *)
Definition strip (s : string) : string := rstrip (lstrip s).

(** The lower case LIKE compares in: the letters A..Z are folded, every
    other character is itself. *)
Definition lower (c : ascii) : ascii :=
  let n := N_of_ascii c in
  if ((65 <=? n) && (n <=? 90))%N then ascii_of_N (n + 32) else c.

(** [t LIKE p] of the storage engine (SQLite, no ESCAPE): [%] in the
    pattern stands for any run of characters, [_] for any one character,
    and any other character for itself up to the case of ASCII letters. *)
Fixpoint like (p t : string) : bool :=
  match p with
  | EmptyString => match t with EmptyString => true | _ => false end
  | String c p' =>
      if Ascii.eqb c "%" then
        (fix any (t : string) : bool :=
           like p' t ||
           match t with
           | EmptyString => false
           | String _ t' => any t'
           end) t
      else
        match t with
        | EmptyString => false
        | String c' t' =>
            (Ascii.eqb c "_" || Ascii.eqb (lower c) (lower c')) && like p' t'
        end
  end.

(** [column.contains(n)] on the column value [h]: the SQL is
    [h LIKE '%' || n || '%'], and [n] is not escaped. *)
Definition contains (h n : string) : bool := like ("%" +:+ n +:+ "%") h.

(** ** Bulk update: [FileLog.query.filter(FileLog.id.in_(ids)).update(...)] *)

Definition update_where_id_in (ids : list Z) (set : FileLog → FileLog)
    (t : gmap Z FileLog) : gmap Z FileLog :=
  map_imap (λ i f, Some (if bool_decide (i ∈ ids) then set f else f)) t.

(** The integers the driver binds to a statement are the 64-bit signed
    ones; on any other Python int it raises [OverflowError]. *)
Definition fits_int64 (z : Z) : bool := (- 2 ^ 63 <=? z) && (z <? 2 ^ 63).

Definition bindable (ids : list Z) : bool := forallb fits_int64 ids.

(** Executing the bulk update: the table after it, [None] when binding
    the ids raises. *)
Definition execute_update (ids : list Z) (set : FileLog → FileLog)
    (t : gmap Z FileLog) : option (gmap Z FileLog) :=
  if bindable ids then Some (update_where_id_in ids set t) else None.

Definition set_approved (now : datetime) (f : FileLog) : FileLog :=
  mkFileLog (filename f) (path f) (agent_id f) "approved" (created_at f) (Some now).

Definition set_rejected (f : FileLog) : FileLog :=
  mkFileLog (filename f) (path f) (agent_id f) "rejected" (created_at f) (approved_at f).

(** [f'{len(file_ids)} files approved for deletion'] *)
Definition count_message (ids : list Z) (what : string) : string :=
  pretty (length ids) +:+ " files " +:+ what +:+ " for deletion".

(** [approve_deletion]; [now] is the value of the one
    [datetime.utcnow()] the handler evaluates. *)
Definition approve_deletion (now : datetime) (d : database) (data : json_request)
    : database * response :=
  match data with
  | NoJson | NotContainer | NotSubscriptable => (d, internal_error)
  | NoData | NoFileIds => (d, bad_request "Invalid request data")
  | FileIdsNotList | FileIds [] => (d, bad_request "file_ids must be a non-empty list")
  | FileIds file_ids =>
      match execute_update file_ids (set_approved now) (files d) with
      | Some t =>
          (mkDb (agents d) t, ok (Message (count_message file_ids "approved")))
      | None => (d, internal_error)
      end
  end.

(** [reject_deletion] *)
Definition reject_deletion (d : database) (data : json_request)
    : database * response :=
  match data with
  | NoJson | NotContainer | NotSubscriptable => (d, internal_error)
  | NoData | NoFileIds => (d, bad_request "Invalid request data")
  | FileIdsNotList | FileIds [] => (d, bad_request "file_ids must be a non-empty list")
  | FileIds file_ids =>
      match execute_update file_ids set_rejected (files d) with
      | Some t =>
          (mkDb (agents d) t, ok (Message (count_message file_ids "rejected")))
      | None => (d, internal_error)
      end
  end.

(** ** [files_preview] *)

Definition is_pending (r : Z * FileLog) : Prop := status r.2 = "pending".

Definition matches (search : string) (r : Z * FileLog) : Prop :=
  contains (filename r.2) search || contains (path r.2) search.

(** One entry of [file_list]; [f.agent] is [None] when no agent row has
    the key [f.agent_id], and [f.agent.ip] then raises. *)
Definition view_of (d : database) (r : Z * FileLog) : option file_view :=
  a ← agents d !! agent_id r.2;
  Some (mkView r.1 (filename r.2) (path r.2) (ip a) (status r.2) (created_at r.2)).

(** The rows [query.all()] yields. The query has no [order_by]: the
    order of the rows is the table's, here the order of the map. *)
Definition pending_query (d : database) (search : string) : gmap Z FileLog :=
  let query := filter is_pending (files d) in
  if decide (search = "") then query else filter (matches search) query.

(** [files_preview]; [arg] is the [search] query parameter, [None] when
    the request has none. *)
Definition files_preview (d : database) (arg : option string) : response :=
  let search := strip (default "" arg) in
  let files := map_to_list (pending_query d search) in
  match mapM (view_of d) files with
  | Some file_list => ok (FileList file_list)
  | None => internal_error
  end.

(** ** [generate_mock_data] *)

(** The database after seeding; [utcnow k] is what the [k]-th evaluation
    of a [default=datetime.utcnow] column yields. *)
Definition generate_mock_data (utcnow : nat → datetime) : database :=
  mkDb
    (list_to_map
       [(1, mkAgent "192.168.1.10" "online" (Some (utcnow 0%nat)));
        (2, mkAgent "192.168.1.11" "online" (Some (utcnow 1%nat)));
        (3, mkAgent "192.168.1.12" "offline" (Some (utcnow 2%nat)))])
    (list_to_map
       [(1, mkFileLog "matlab_script.m" "/home/user/documents/matlab_script.m" 1
              "pending" (Some (utcnow 3%nat)) None);
        (2, mkFileLog "data.mat" "/home/user/data/data.mat" 1
              "pending" (Some (utcnow 4%nat)) None);
        (3, mkFileLog "report.pdf" "/home/user/reports/report.pdf" 2
              "pending" (Some (utcnow 5%nat)) None);
        (4, mkFileLog "temp.txt" "/tmp/temp.txt" 2
              "pending" (Some (utcnow 6%nat)) None)]).

(** ** Creating a file row *)

(** The row [FileLog(filename=.., path=.., agent_id=..)] becomes under the
    column defaults: [status] is ['pending'], [created_at] is the
    [utcnow()] of the insert, [approved_at] is NULL. *)
Definition new_file (now : datetime) (name full_path : string) (agent : Z) : FileLog :=
  mkFileLog name full_path agent "pending" (Some now) None.

(** [db.session.add(row); db.session.commit()] on the [FileLog] table,
    as [generate_mock_data] does for each of its rows. [rowid] is the
    key the engine gives the row: a key no row of the table has. The
    insert checks neither that [agent_id] names an agent row (the engine
    does not enforce the declared foreign key) nor that a string is
    not empty. *)
Definition add_file (rowid : Z) (d : database) (f : FileLog) : database :=
  mkDb (agents d) (<[rowid := f]> (files d)).

(** ** Sequences of approve and reject requests *)

Inductive call :=
| Approve (now : datetime) (data : json_request)
| Reject (data : json_request).

Definition do_call (d : database) (c : call) : database :=
  match c with
  | Approve now data => (approve_deletion now d data).1
  | Reject data => (reject_deletion d data).1
  end.

Definition run (d : database) (cs : list call) : database := foldl do_call d cs.

(** The ids a request names. *)
Definition listed (data : json_request) : list Z :=
  match data with
  | FileIds file_ids => file_ids
  | _ => []
  end.

Definition targets (c : call) : list Z :=
  match c with
  | Approve _ data | Reject data => listed data
  end.

(** The ids of the update a request leads to: the ids it names when the
    statement can be executed, none otherwise. *)
Definition accepted (data : json_request) : list Z :=
  if bindable (listed data) then listed data else [].

Definition updates (c : call) : list Z :=
  match c with
  | Approve _ data | Reject data => accepted data
  end.

(** The update a call applies to the rows it lists. *)
Definition set_by (c : call) : FileLog → FileLog :=
  match c with
  | Approve now _ => set_approved now
  | Reject _ => set_rejected
  end.

(** ** Properties of strings, rows and tables used in the statements *)

(** [n] occurs in [h], character by character. *)
Definition occurs_in (n h : string) : Prop := ∃ a b, h = a +:+ n +:+ b.



(** The text [t] is an instance of the LIKE pattern [p]: every [%] of
    the pattern stands for some run of characters of the text, every [_]
    for one character, every other character for the same character up
    to the case of ASCII letters. *)
Fixpoint like_match (p t : string) : Prop :=
  match p with
  | EmptyString => t = ""
  | String c p' =>
      if decide (c = "%"%char) then ∃ a t', t = a +:+ t' ∧ like_match p' t'
      else ∃ c' t', t = String c' t' ∧
             (c = "_"%char ∨ lower c = lower c') ∧ like_match p' t'
  end.

(** Some part of [h] is an instance of the pattern [n]. *)
Definition like_contains (n h : string) : Prop :=
  ∃ a y b, h = a +:+ y +:+ b ∧ like_match n y.

(** Every character of [s] is white space. *)
Fixpoint all_space (s : string) : bool :=
  match s with
  | EmptyString => true
  | String c s' => isspace c && all_space s'
  end.

(** Every character of [s] is [%]. *)
Fixpoint all_percent (s : string) : bool :=
  match s with
  | EmptyString => true
  | String c s' => Ascii.eqb c "%" && all_percent s'
  end.

(** [approved_at] is set exactly on the approved rows. *)
Definition approved_at_iff_approved (d : database) : Prop :=
  map_Forall (λ _ f, is_Some (approved_at f) ↔ status f = "approved") (files d).

(** [approved_at] is set on the approved rows and not set on the pending
    rows. *)
Definition approved_at_fits_status (d : database) : Prop :=
  map_Forall (λ _ f, (status f = "approved" → is_Some (approved_at f)) ∧
                     (status f = "pending" → approved_at f = None)) (files d).



(** The status of every file row is one of the three the model names. *)
Definition statuses_known (d : database) : Prop :=
  map_Forall (λ _ f, status f = "pending" ∨ status f = "approved"
                     ∨ status f = "rejected") (files d).

(** ** Concrete databases *)

Definition mock_db : database := generate_mock_data (λ k, Z.of_nat k).

(** File 1 approved at instant 100. *)
Definition approved_db : database :=
  (approve_deletion 100 mock_db (FileIds [1])).1.


(** File 1 approved at instant 100, then rejected. *)
Definition approved_then_rejected_db : database :=
  (reject_deletion approved_db (FileIds [1])).1.

(** ** [clients_status] *)

(** One entry of [status_list]; as for [created_at], the instant stands
    for its [isoformat()]. *)
Record agent_view := mkAgentView {
  a_id : Z;
  a_ip : string;
  a_status : string;
  a_last_seen : option datetime
}.

Definition agent_view_of (r : Z * Agent) : agent_view :=
  mkAgentView r.1 (ip r.2) (agent_status r.2) (last_seen r.2).

(** [clients_status]: the status code and the list handed to [jsonify]. *)
Definition clients_status (d : database) : Z * list agent_view :=
  (200, agent_view_of <$> map_to_list (agents d)).

(** ** [submit_instruction] *)

(** The body of a request to [submit_instruction], as [json_request]
    with the key ['instruction']; the value under the key is a string or
    any other JSON value. *)
Inductive instruction_request :=
| NoInstructionJson
| NoInstructionData
| InstructionNotContainer
| NoInstruction
| InstructionNotSubscriptable
| InstructionNotStr
| Instruction (s : string).

(** What the [try] block raises: the exception of [get_json()], the
    [TypeError] of [in] and of the subscript, the [AttributeError] of
    [.strip] on a value that is not a string. *)
Inductive exception := JsonError | TypeError | AttributeError.

(** A record the handler gives to [logger]: [LogError m e] is the
    message [m] followed by [str(e)]. *)
Inductive log_record :=
| LogInfo (m : string)
| LogError (m : string) (e : exception).

(** [submit_instruction]: the response and what is logged. *)
Definition submit_instruction (data : instruction_request)
    : response * list log_record :=
  match data with
  | NoInstructionJson =>
      (internal_error, [LogError "Error submitting instruction: " JsonError])
  | InstructionNotContainer | InstructionNotSubscriptable =>
      (internal_error, [LogError "Error submitting instruction: " TypeError])
  | InstructionNotStr =>
      (internal_error, [LogError "Error submitting instruction: " AttributeError])
  | NoInstructionData | NoInstruction => (bad_request "Invalid request data", [])
  | Instruction s =>
      let instruction := strip s in
      if decide (instruction = "") then
        (bad_request "Instruction cannot be empty", [])
      else
        (ok (Message "Instruction submitted successfully"),
         [LogInfo ("Instruction submitted: " +:+ instruction)])
  end.


(** * Strings *)

Lemma lstrip_all_space s : all_space s = true → lstrip s = "".
Proof.
  induction s as [|c s IH]; simpl; [done|].
  intros [Hc Hs]%andb_prop. rewrite Hc. auto.
Qed.

Lemma strip_all_space s : all_space s = true → strip s = "".
Proof. intros H. unfold strip. by rewrite lstrip_all_space. Qed.

Lemma append_cons c a b : String c a +:+ b = String c (a +:+ b).
Proof. reflexivity. Qed.

Lemma append_nil b : "" +:+ b = b.
Proof. reflexivity. Qed.

Lemma append_nil_r a : a +:+ "" = a.
Proof. induction a as [|x a IH]; [done|]. by rewrite append_cons, IH. Qed.

Lemma string_app_assoc a b c : (a +:+ b) +:+ c = a +:+ b +:+ c.
Proof.
  induction a as [|x a IH]; [done|]. by rewrite !append_cons, IH.
Qed.

Lemma append_eq_nil a b : a +:+ b = "" → a = "" ∧ b = "".
Proof. destruct a; [by rewrite append_nil | done]. Qed.

Example strip_both_ends : strip "  a b  " = "a b".
Proof. reflexivity. Qed.

Lemma lstrip_decomposition s : ∃ a, s = a +:+ lstrip s ∧ all_space a = true.
Proof.
  induction s as [|c s (a & Ha & Hsp)]; simpl.
  - by exists "".
  - destruct (isspace c) eqn:Hc.
    + exists (String c a). rewrite append_cons, <- Ha. simpl. by rewrite Hc.
    + by exists "".
Qed.

Lemma lstrip_head s :
  match lstrip s with
  | EmptyString => True
  | String c _ => isspace c = false
  end.
Proof.
  induction s as [|c s IH]; simpl; [done|].
  destruct (isspace c) eqn:Hc; [done|]. by simpl.
Qed.

Lemma lstrip_fixed c t : isspace c = false → lstrip (String c t) = String c t.
Proof. intros Hc. simpl. by rewrite Hc. Qed.

Lemma rstrip_empty_iff t : rstrip t = "" ↔ all_space t = true.
Proof.
  induction t as [|c t IH]; simpl; [done|].
  destruct (rstrip t) as [|c' r] eqn:Hr.
  - destruct (isspace c); simpl; [|done].
    split; [intros _; by apply IH | done].
  - split; [done|]. intros [_ Ht]%andb_prop. apply IH in Ht. done.
Qed.

Lemma rstrip_decomposition t : ∃ b, t = rstrip t +:+ b ∧ all_space b = true.
Proof.
  induction t as [|c t (b & Hb & Hsp)]; simpl.
  - by exists "".
  - destruct (rstrip t) as [|c' r] eqn:Hr.
    + destruct (isspace c) eqn:Hc.
      * exists (String c b). rewrite append_nil in *. subst b. simpl.
        by rewrite Hc, Hsp.
      * exists b. rewrite append_cons, append_nil in *. by subst b.
    + exists b. rewrite append_cons. by rewrite <- Hb.
Qed.

Lemma rstrip_head c t : isspace c = false →
  ∃ r, rstrip (String c t) = String c r.
Proof.
  intros Hc. simpl. destruct (rstrip t); rewrite ?Hc; by eexists.
Qed.

Lemma rstrip_idempotent t : rstrip (rstrip t) = rstrip t.
Proof.
  induction t as [|c t IH]; simpl; [done|].
  destruct (rstrip t) as [|c' r] eqn:Hr.
  - destruct (isspace c) eqn:Hc; simpl; [done|]. by rewrite Hc.
  - remember (String c' r) as u. simpl. rewrite IH. by subst u.
Qed.

Lemma lstrip_strip s : lstrip (strip s) = strip s.
Proof.
  unfold strip. pose proof (lstrip_head s) as Hh.
  destruct (lstrip s) as [|c t]; [done|].
  destruct (rstrip_head c t Hh) as [r ->]. by apply lstrip_fixed.
Qed.

Lemma strip_empty_all_space s : strip s = "" → all_space s = true.
Proof.
  unfold strip. intros H%rstrip_empty_iff.
  destruct (lstrip_decomposition s) as (a & Hs & Ha).
  pose proof (lstrip_head s) as Hh.
  destruct (lstrip s) as [|c t].
  - rewrite Hs. clear Hs. induction a as [|x a IH]; simpl in *; [done|].
    apply andb_prop in Ha as [-> Ha]. simpl. by apply IH.
  - simpl in H. by rewrite Hh in H.
Qed.

(** [strip] gives the empty string exactly on the strings that have
    white space only. *)
Lemma strip_empty_iff s : strip s = "" ↔ all_space s = true.
Proof. split; [apply strip_empty_all_space | apply strip_all_space]. Qed.

(** [strip] removes white space at the two ends only: the string is
    its stripped form between two runs of white space, and the stripped
    form has no white space left to remove at either end. *)
Lemma strip_decomposition s :
  ∃ a b, s = a +:+ strip s +:+ b ∧ all_space a = true ∧ all_space b = true ∧
    lstrip (strip s) = strip s ∧ rstrip (strip s) = strip s.
Proof.
  destruct (lstrip_decomposition s) as (a & Hs & Ha).
  destruct (rstrip_decomposition (lstrip s)) as (b & Ht & Hb).
  exists a, b. repeat split; try done.
  - unfold strip. by rewrite <- Ht.
  - apply lstrip_strip.
  - apply rstrip_idempotent.
Qed.

(** Stripping twice is stripping once. *)
Lemma strip_idempotent s : strip (strip s) = strip s.
Proof.
  unfold strip at 1. rewrite lstrip_strip. apply rstrip_idempotent.
Qed.

(** * Occurrence, character by character *)



Lemma occurs_in_trans n m h : occurs_in n m → occurs_in m h → occurs_in n h.
Proof.
  intros (a & b & ->) (a' & b' & ->). exists (a' +:+ a), (b +:+ b').
  by rewrite !string_app_assoc.
Qed.

Lemma occurs_in_strip s : occurs_in (strip s) s.
Proof.
  destruct (lstrip_decomposition s) as (a & Hs & _).
  destruct (rstrip_decomposition (lstrip s)) as (b & Ht & _).
  exists a, b. unfold strip. by rewrite <- Ht.
Qed.

(** * LIKE *)

Lemma like_percent p t :
  like (String "%" p) t =
    like p t || match t with
                | EmptyString => false
                | String _ t' => like (String "%" p) t'
                end.
Proof. by destruct t. Qed.

Lemma like_spec p t : like p t = true ↔ like_match p t.
Proof.
  revert t. induction p as [|c p IH]; intros t.
  - destruct t; simpl; split; done.
  - cbn [like_match]. destruct (decide (c = "%"%char)) as [->|Hc].
    + induction t as [|x t IHt]; rewrite like_percent, orb_true_iff.
      * rewrite IH. split.
        -- intros [H|H]; [|done]. by exists "", "".
        -- intros (a & t' & [-> ->]%eq_sym%append_eq_nil & H). by left.
      * rewrite IH, IHt. split.
        -- intros [H|(a & t' & -> & H)].
           ++ by exists "", (String x t).
           ++ exists (String x a), t'. by rewrite append_cons.
        -- intros ([|y a] & t' & Ht & H).
           ++ left. rewrite append_nil in Ht. by subst t'.
           ++ right. rewrite append_cons in Ht. injection Ht as -> ->.
              by exists a, t'.
    + cbn [like]. rewrite (proj2 (Ascii.eqb_neq _ _) Hc).
      destruct t as [|c' t].
      * split; [done | by intros (? & ? & ? & _)].
      * rewrite andb_true_iff, orb_true_iff, !Ascii.eqb_eq, IH. split.
        -- intros [Hcc H]. by exists c', t.
        -- intros (c'' & t' & [= <- <-] & Hcc & H). by split.
Qed.

Lemma like_match_app p1 p2 t :
  like_match (p1 +:+ p2) t ↔
  ∃ t1 t2, t = t1 +:+ t2 ∧ like_match p1 t1 ∧ like_match p2 t2.
Proof.
  revert t. induction p1 as [|c p1 IH]; intros t.
  - rewrite append_nil. split.
    + intros H. by exists "", t.
    + intros (t1 & t2 & -> & -> & H). done.
  - rewrite append_cons. cbn [like_match]. destruct (decide (c = "%"%char)).
    + split.
      * intros (a & t' & -> & (t1 & t2 & -> & H1 & H2)%IH).
        exists (a +:+ t1), t2. rewrite string_app_assoc. eauto 10.
      * intros (t1 & t2 & -> & (a & t' & -> & H1) & H2).
        exists a, (t' +:+ t2). rewrite string_app_assoc. split; [done|].
        apply IH. eauto.
    + split.
      * intros (c' & t' & -> & Hc & (t1 & t2 & -> & H1 & H2)%IH).
        exists (String c' t1), t2. rewrite append_cons. eauto 10.
      * intros (t1 & t2 & -> & (c' & t' & -> & Hc & H1) & H2).
        exists c', (t' +:+ t2). rewrite append_cons. repeat split; [done|].
        apply IH. eauto.
Qed.

Lemma like_match_refl s : like_match s s.
Proof.
  induction s as [|c s IH]; [done|]. cbn [like_match]. case_decide.
  - exists (String c ""), s. by rewrite append_cons, append_nil.
  - exists c, s. auto.
Qed.

Lemma like_match_percent t : like_match "%" t.
Proof. exists t, "". by rewrite append_nil_r. Qed.

Lemma like_match_nil p : like_match p "" ↔ all_percent p = true.
Proof.
  induction p as [|c p IH]; [done|]. cbn [like_match all_percent].
  rewrite andb_true_iff, Ascii.eqb_eq, <- IH. case_decide as Hc.
  - split.
    + intros (a & t' & [-> ->]%eq_sym%append_eq_nil & H). done.
    + intros [_ H]. by exists "", "".
  - split; [by intros (? & ? & ? & _) | by intros [? _]].
Qed.

Lemma contains_spec h n : contains h n = true ↔ like_contains n h.
Proof.
  unfold contains, like_contains. rewrite like_spec.
  change ("%" +:+ n +:+ "%") with (String "%" (n +:+ "%")).
  cbn [like_match]. rewrite decide_True by done.
  setoid_rewrite like_match_app. split.
  - intros (a & t' & -> & y & b & -> & Hy & _). by exists a, y, b.
  - intros (a & y & b & -> & Hy). exists a, (y +:+ b). split; [done|].
    exists y, b. split; [done|]. split; [done|]. apply like_match_percent.
Qed.

Lemma like_contains_occurs n h : occurs_in n h → like_contains n h.
Proof. intros (a & b & ->). exists a, n, b. split; [done|]. apply like_match_refl. Qed.


Lemma like_contains_all_percent n h : all_percent n = true → like_contains n h.
Proof.
  intros H%like_match_nil. by exists "", "", h.
Qed.


Lemma contains_empty h : contains h "" = true.
Proof. by apply contains_spec, like_contains_all_percent. Qed.

Example contains_folds_case_and_wildcards :
  contains "data.mat" "MAT" = true ∧ contains "data.mat" "d_ta" = true ∧
  contains "report.pdf" "%" = true ∧ contains "data.mat" "dat.m" = false.
Proof. repeat split; reflexivity. Qed.

(** * The bulk update *)

Lemma lookup_update_where_id_in ids set t i :
  update_where_id_in ids set t !! i =
    (λ f, if bool_decide (i ∈ ids) then set f else f) <$> t !! i.
Proof.
  unfold update_where_id_in. rewrite map_lookup_imap.
  by destruct (t !! i).
Qed.

Lemma accepted_listed data i : i ∈ accepted data → i ∈ listed data.
Proof. unfold accepted. by destruct (bindable (listed data)); [|intros ?%elem_of_nil]. Qed.

Lemma accepted_bindable ids : bindable ids = true → accepted (FileIds ids) = ids.
Proof. unfold accepted. simpl. by intros ->. Qed.

Lemma accepted_not_bindable ids : bindable ids = false → accepted (FileIds ids) = [].
Proof. unfold accepted. simpl. by intros ->. Qed.

Lemma approve_deletion_not_bindable now d ids :
  bindable ids = false → approve_deletion now d (FileIds ids) = (d, internal_error).
Proof.
  intros H. destruct ids as [|i ids]; [done|].
  unfold approve_deletion, execute_update. by rewrite H.
Qed.


Lemma approve_deletion_lookup now d data i :
  files (approve_deletion now d data).1 !! i =
    (λ f, if bool_decide (i ∈ accepted data) then set_approved now f else f)
      <$> files d !! i.
Proof.
  assert (Hnil : (λ f : FileLog, if bool_decide (i ∈ @nil Z) then set_approved now f else f)
                   <$> files d !! i = files d !! i).
  { rewrite bool_decide_eq_false_2 by apply not_elem_of_nil.
    by destruct (files d !! i). }
  destruct data as [| | | | | |ids]; try (symmetry; exact Hnil).
  destruct ids as [|i0 ids]; [symmetry; exact Hnil|].
  unfold approve_deletion, execute_update, accepted. simpl listed.
  destruct (bindable (i0 :: ids)); simpl.
  - apply lookup_update_where_id_in.
  - symmetry; exact Hnil.
Qed.

Lemma reject_deletion_lookup d data i :
  files (reject_deletion d data).1 !! i =
    (λ f, if bool_decide (i ∈ accepted data) then set_rejected f else f)
      <$> files d !! i.
Proof.
  assert (Hnil : (λ f : FileLog, if bool_decide (i ∈ @nil Z) then set_rejected f else f)
                   <$> files d !! i = files d !! i).
  { rewrite bool_decide_eq_false_2 by apply not_elem_of_nil.
    by destruct (files d !! i). }
  destruct data as [| | | | | |ids]; try (symmetry; exact Hnil).
  destruct ids as [|i0 ids]; [symmetry; exact Hnil|].
  unfold reject_deletion, execute_update, accepted. simpl listed.
  destruct (bindable (i0 :: ids)); simpl.
  - apply lookup_update_where_id_in.
  - symmetry; exact Hnil.
Qed.

Lemma handlers_keep_agents now d data :
  agents (approve_deletion now d data).1 = agents d ∧
  agents (reject_deletion d data).1 = agents d.
Proof.
  destruct data as [| | | | | |ids]; try done.
  destruct ids as [|i0 ids]; [done|].
  unfold approve_deletion, reject_deletion, execute_update.
  by destruct (bindable (i0 :: ids)).
Qed.

(** * approve_deletion *)




(** An id that is no 64-bit signed integer: the 500, and file 1, listed
    with it, stays pending. *)
Example approve_deletion_id_out_of_range :
  approve_deletion 100 mock_db (FileIds [1; 2 ^ 63]) = (mock_db, internal_error).
Proof. reflexivity. Qed.

(** C9: all rows one approve call updates carry the same approved_at,
    the timestamp the call took before the update; a call that cannot
    be executed, for an id that is no 64-bit signed integer, updates no
    row. *)
Theorem approve_deletion_one_timestamp now d ids i j f g :
  i ∈ ids → j ∈ ids →
  files (approve_deletion now d (FileIds ids)).1 !! i = Some f →
  files (approve_deletion now d (FileIds ids)).1 !! j = Some g →
  if bindable ids then approved_at f = Some now ∧ approved_at g = approved_at f
  else approve_deletion now d (FileIds ids) = (d, internal_error).
Proof.
  intros Hi Hj. destruct (bindable ids) eqn:Hb.
  - rewrite !approve_deletion_lookup, (accepted_bindable _ Hb).
    rewrite !bool_decide_eq_true_2 by done.
    destruct (files d !! i) as [f0|], (files d !! j) as [g0|]; simpl; try done.
    by intros [= <-] [= <-].
  - intros _ _. by apply approve_deletion_not_bindable.
Qed.

Lemma approve_deletion_one_timestamp_witness :
  1 ∈ [1; 2] ∧ 2 ∈ [1; 2] ∧
  files (approve_deletion 100 mock_db (FileIds [1; 2])).1 !! 1 =
    Some (mkFileLog "matlab_script.m" "/home/user/documents/matlab_script.m" 1
            "approved" (Some 3) (Some 100)) ∧
  files (approve_deletion 100 mock_db (FileIds [1; 2])).1 !! 2 =
    Some (mkFileLog "data.mat" "/home/user/data/data.mat" 1
            "approved" (Some 4) (Some 100)) ∧
  approved_at
    (mkFileLog "matlab_script.m" "/home/user/documents/matlab_script.m" 1
       "approved" (Some 3) (Some 100)) = Some 100 ∧
  approved_at
    (mkFileLog "data.mat" "/home/user/data/data.mat" 1
       "approved" (Some 4) (Some 100)) =
  approved_at
    (mkFileLog "matlab_script.m" "/home/user/documents/matlab_script.m" 1
       "approved" (Some 3) (Some 100)).
Proof.
  assert (H1 : 1 ∈ [1; 2]) by apply list_elem_of_here.
  assert (H2 : 2 ∈ [1; 2]) by apply list_elem_of_further, list_elem_of_here.
  assert (Hf : files (approve_deletion 100 mock_db (FileIds [1; 2])).1 !! 1 =
    Some (mkFileLog "matlab_script.m" "/home/user/documents/matlab_script.m" 1
            "approved" (Some 3) (Some 100))) by (vm_compute; reflexivity).
  assert (Hg : files (approve_deletion 100 mock_db (FileIds [1; 2])).1 !! 2 =
    Some (mkFileLog "data.mat" "/home/user/data/data.mat" 1
            "approved" (Some 4) (Some 100))) by (vm_compute; reflexivity).
  repeat (split; [assumption|]).
  exact (approve_deletion_one_timestamp 100 mock_db [1; 2] 1 2 _ _ H1 H2 Hf Hg).
Defined.

(** * The reported count *)

Example count_message_decimal :
  count_message [4; 8; 15; 16; 23; 42; 1; 2; 3; 5; 6; 7] "approved" =
    "12 files approved for deletion".
Proof. reflexivity. Qed.



(** * Empty id lists *)

(** C7: approve and reject answer an empty file_ids list with the 400
    error 'file_ids must be a non-empty list' and leave the database as
    it was. *)
Theorem empty_file_ids_is_bad_request now d :
  approve_deletion now d (FileIds []) =
    (d, mkResponse 400 (Error "file_ids must be a non-empty list")) ∧
  reject_deletion d (FileIds []) =
    (d, mkResponse 400 (Error "file_ids must be a non-empty list")).
Proof. split; reflexivity. Qed.

(** * reject_deletion *)

(** C8: reject changes nothing but the status column of the rows it
    lists: filename, path, agent_id, created_at and approved_at of every
    row are kept, a row that is not listed is unchanged, no row appears
    or disappears, and the agent table is unchanged. The rows it sets to
    'rejected' are the listed ones of a request it can execute; on any
    other request no row changes. *)
Theorem reject_deletion_only_sets_status d data i :
  agents (reject_deletion d data).1 = agents d ∧
  match files d !! i with
  | None => files (reject_deletion d data).1 !! i = None
  | Some f =>
      ∃ f', files (reject_deletion d data).1 !! i = Some f' ∧
        filename f' = filename f ∧ path f' = path f ∧
        agent_id f' = agent_id f ∧ created_at f' = created_at f ∧
        approved_at f' = approved_at f ∧
        if bool_decide (i ∈ accepted data) then status f' = "rejected" else f' = f
  end.
Proof.
  split; [apply (handlers_keep_agents 0)|].
  rewrite reject_deletion_lookup.
  destruct (files d !! i) as [f|]; simpl; [|done].
  eexists; split; [done|]. by case_bool_decide.
Qed.

(** * Sequences of calls *)

Lemma do_call_lookup d c i f :
  files d !! i = Some f →
  ∃ f', files (do_call d c) !! i = Some f' ∧
    (status f ≠ "pending" → status f' ≠ "pending") ∧
    (is_Some (approved_at f) → is_Some (approved_at f')) ∧
    (i ∉ targets c → f' = f).
Proof.
  intros Hf. destruct c as [now data|data]; simpl.
  - rewrite approve_deletion_lookup, Hf. simpl. eexists; split; [done|].
    case_bool_decide as Hi; simpl; [|done].
    apply accepted_listed in Hi. by repeat split.
  - rewrite reject_deletion_lookup, Hf. simpl. eexists; split; [done|].
    case_bool_decide as Hi; simpl; [|done].
    apply accepted_listed in Hi. by repeat split.
Qed.

(** C2, as the code has it: over any sequence of approve and reject
    calls a row that is not pending never becomes pending again, an
    approved_at that is set stays set, and a row no call lists is
    unchanged; a call that lists a row overwrites its status also when
    the row is approved or rejected. *)
Theorem never_pending_again d cs i f :
  files d !! i = Some f →
  ∃ f', files (run d cs) !! i = Some f' ∧
    (status f ≠ "pending" → status f' ≠ "pending") ∧
    (is_Some (approved_at f) → is_Some (approved_at f')) ∧
    (Forall (λ c, i ∉ targets c) cs → f' = f).
Proof.
  revert d f. induction cs as [|c cs IH]; intros d f Hf; simpl.
  - by exists f.
  - destruct (do_call_lookup d c i f Hf) as (f1 & Hf1 & Hs1 & Ha1 & Hu1).
    destruct (IH _ _ Hf1) as (f' & Hf' & Hs & Ha & Hu).
    exists f'. split; [done|]. repeat split.
    + auto.
    + auto.
    + intros [Hc Hcs]%Forall_cons. rewrite (Hu Hcs). auto.
Qed.

Lemma never_pending_again_witness :
  files approved_db !! 1 =
    Some (mkFileLog "matlab_script.m" "/home/user/documents/matlab_script.m" 1
            "approved" (Some 3) (Some 100)) ∧
  ∃ f', files (run approved_db [Reject (FileIds [1]); Approve 200 (FileIds [2])]) !! 1
          = Some f' ∧
    (status (mkFileLog "matlab_script.m" "/home/user/documents/matlab_script.m" 1
            "approved" (Some 3) (Some 100)) ≠ "pending" → status f' ≠ "pending") ∧
    (is_Some (approved_at (mkFileLog "matlab_script.m" "/home/user/documents/matlab_script.m" 1
            "approved" (Some 3) (Some 100))) → is_Some (approved_at f')) ∧
    (Forall (λ c, 1 ∉ targets c) [Reject (FileIds [1]); Approve 200 (FileIds [2])] →
     f' = mkFileLog "matlab_script.m" "/home/user/documents/matlab_script.m" 1
            "approved" (Some 3) (Some 100)).
Proof.
  split; [vm_compute; reflexivity|].
  apply (never_pending_again approved_db
           [Reject (FileIds [1]); Approve 200 (FileIds [2])] 1).
  vm_compute. reflexivity.
Defined.

(** C2 as stated fails: file 1, approved and so not pending, has its
    status changed by a later reject that lists it, and its approved_at
    changed by a later approve. *)
Lemma terminal_states_not_absorbing_counterexample :
  status <$> files approved_db !! 1 = Some "approved" ∧
  status <$> files (reject_deletion approved_db (FileIds [1])).1 !! 1
    = Some "rejected" ∧
  approved_at <$> files approved_db !! 1 = Some (Some 100) ∧
  approved_at <$> files (approve_deletion 200 approved_db (FileIds [1])).1 !! 1
    = Some (Some 200).
Proof. repeat split; vm_compute; reflexivity. Qed.

(** * approved_at and status *)

(** C4, as the code has it: that every approved row has approved_at set
    and every pending row has it not set is preserved by approve, by
    reject and by the creation of a file row. A rejected row can have
    it either way: a reject leaves the approved_at of an approved row in
    place. *)
Theorem approved_at_fits_status_preserved now d data rowid name full_path agent :
  approved_at_fits_status d →
  approved_at_fits_status (approve_deletion now d data).1 ∧
  approved_at_fits_status (reject_deletion d data).1 ∧
  approved_at_fits_status (add_file rowid d (new_file now name full_path agent)).
Proof.
  unfold approved_at_fits_status. intros Hd. split; [|split].
  - intros i f'. rewrite approve_deletion_lookup.
    destruct (files d !! i) as [f|] eqn:Hf; simpl; [|done].
    intros [= <-]. case_bool_decide; simpl; [by split; [eexists|]|].
    by apply (Hd i).
  - intros i f'. rewrite reject_deletion_lookup.
    destruct (files d !! i) as [f|] eqn:Hf; simpl; [|done].
    intros [= <-]. case_bool_decide; simpl; [done|].
    by apply (Hd i).
  - simpl. apply map_Forall_insert_2; [done|apply Hd].
Qed.

Lemma approved_at_fits_status_preserved_witness :
  approved_at_fits_status approved_db ∧
  approved_at_fits_status (approve_deletion 200 approved_db (FileIds [1; 2])).1 ∧
  approved_at_fits_status (reject_deletion approved_db (FileIds [1; 2])).1 ∧
  approved_at_fits_status
    (add_file 5 approved_db (new_file 200 "a.txt" "/x/a.txt" 1)).
Proof.
  assert (H : approved_at_fits_status approved_db).
  { unfold approved_at_fits_status.
    eapply bool_decide_unpack. vm_compute. exact I. }
  split; [exact H|].
  exact (approved_at_fits_status_preserved 200 approved_db (FileIds [1; 2]) 5
           "a.txt" "/x/a.txt" 1 H).
Defined.

(** C4 as stated fails: the seeded database with file 1 approved has
    approved_at set exactly on its approved rows; after a reject that
    lists file 1 the row is rejected and its approved_at is still set. *)
Lemma approved_at_iff_approved_counterexample :
  approved_at_iff_approved approved_db ∧
  ¬ approved_at_iff_approved approved_then_rejected_db.
Proof.
  unfold approved_at_iff_approved. split.
  - eapply bool_decide_unpack. vm_compute. exact I.
  - intros H.
    assert (Hrow : files approved_then_rejected_db !! 1 =
      Some (mkFileLog "matlab_script.m" "/home/user/documents/matlab_script.m" 1
              "rejected" (Some 3) (Some 100))) by (vm_compute; reflexivity).
    apply H in Hrow. simpl in Hrow.
    assert (Habs : "rejected" = "approved") by (apply Hrow; by eexists).
    discriminate Habs.
Qed.

(** The relation of approved_at and status says something of a created
    row: one born pending with approved_at set would break it. *)
Example approved_at_fits_status_rules_out :
  ¬ approved_at_fits_status
      (add_file 5 mock_db
         (mkFileLog "a.txt" "/x/a.txt" 1 "pending" (Some 7) (Some 7))).
Proof.
  intros H.
  assert (Hrow : files (add_file 5 mock_db
      (mkFileLog "a.txt" "/x/a.txt" 1 "pending" (Some 7) (Some 7))) !! 5 =
    Some (mkFileLog "a.txt" "/x/a.txt" 1 "pending" (Some 7) (Some 7)))
    by (vm_compute; reflexivity).
  apply H in Hrow as [_ Hp]. by specialize (Hp eq_refl).
Qed.

(** * Creating a file row *)

(** C6, as the code has it: creating a file row checks nothing and has
    no typed error. For an owning agent that exists, the row is stored
    under its new id as it was given, also with an empty filename or
    path: status 'pending', created_at the time of the insert,
    approved_at not set; every other row and the agent table are as
    before. *)
Theorem creation_stores_row_as_given rowid now d name full_path agent :
  is_Some (agents d !! agent) → files d !! rowid = None →
  files (add_file rowid d (new_file now name full_path agent)) !! rowid =
    Some (mkFileLog name full_path agent "pending" (Some now) None) ∧
  delete rowid (files (add_file rowid d (new_file now name full_path agent)))
    = files d ∧
  agents (add_file rowid d (new_file now name full_path agent)) = agents d.
Proof.
  intros _ Hfresh. simpl. repeat split.
  - apply lookup_insert_eq.
  - rewrite delete_insert_eq. by apply delete_id.
Qed.

Lemma creation_stores_row_as_given_witness :
  is_Some (agents mock_db !! 1) ∧ files mock_db !! 5 = None ∧
  files (add_file 5 mock_db (new_file 7 "" "/x/a.txt" 1)) !! 5 =
    Some (mkFileLog "" "/x/a.txt" 1 "pending" (Some 7) None) ∧
  delete 5 (files (add_file 5 mock_db (new_file 7 "" "/x/a.txt" 1)))
    = files mock_db ∧
  agents (add_file 5 mock_db (new_file 7 "" "/x/a.txt" 1)) = agents mock_db.
Proof.
  assert (H1 : is_Some (agents mock_db !! 1)) by (vm_compute; eexists; reflexivity).
  assert (H2 : files mock_db !! 5 = None) by (vm_compute; reflexivity).
  split; [exact H1|]. split; [exact H2|].
  exact (creation_stores_row_as_given 5 7 mock_db "" "/x/a.txt" 1 H1 H2).
Defined.

(** C6 as stated fails: on the seeded database a row with an empty
    filename is created for agent 1, and a row is created for the owning
    agent 999, which is no agent. *)
Lemma creation_unchecked_counterexample :
  is_Some (agents mock_db !! 1) ∧ files mock_db !! 5 = None ∧
  files (add_file 5 mock_db (new_file 7 "" "/x/a.txt" 1)) !! 5 =
    Some (mkFileLog "" "/x/a.txt" 1 "pending" (Some 7) None) ∧
  agents mock_db !! 999 = None ∧
  files (add_file 5 mock_db (new_file 7 "a.txt" "/x/a.txt" 999)) !! 5 =
    Some (mkFileLog "a.txt" "/x/a.txt" 999 "pending" (Some 7) None).
Proof.
  repeat split; try (vm_compute; reflexivity).
  vm_compute. eexists. reflexivity.
Qed.

(** * files_preview *)

Lemma lookup_pending_query d search i f :
  pending_query d search !! i = Some f ↔
    files d !! i = Some f ∧ status f = "pending" ∧
    (like_contains search (filename f) ∨ like_contains search (path f)).
Proof.
  unfold pending_query. case_decide as Hs.
  - rewrite map_lookup_filter_Some. unfold is_pending. simpl. subst search.
    split; [|tauto]. intros [??]. repeat split; [done..|].
    left. by apply like_contains_all_percent.
  - rewrite !map_lookup_filter_Some. unfold is_pending, matches. simpl.
    rewrite orb_True, !Is_true_true, !contains_spec. tauto.
Qed.




(** C10: a search string of white space only gives the same response as
    no search string, and that response lists the pending rows: one
    entry for each pending row and for no other row, or the 500 when a
    pending row has no agent. *)
Theorem whitespace_search_is_no_search d s :
  all_space s = true →
  files_preview d (Some s) = files_preview d None ∧
  ∃ rows, NoDup rows ∧
    (∀ i f, (i, f) ∈ rows ↔ files d !! i = Some f ∧ status f = "pending") ∧
    ((∃ views, files_preview d None = ok (FileList views) ∧
        Forall2 (λ r v, view_of d r = Some v) rows views) ∨
     (files_preview d None = internal_error ∧
        Exists (λ r, agents d !! agent_id r.2 = None) rows)).
Proof.
  intros Hs. split.
  { unfold files_preview. simpl. by rewrite (strip_all_space s Hs). }
  exists (map_to_list (pending_query d "")). split; [apply NoDup_map_to_list|].
  split.
  - intros i f. rewrite elem_of_map_to_list, lookup_pending_query.
    split; [tauto|]. intros [??]. repeat split; [done..|].
    left. by apply like_contains_all_percent.
  - unfold files_preview. simpl. change (strip "") with "".
    destruct (mapM (view_of d) (map_to_list (pending_query d ""))) as [views|] eqn:Hm.
    + left. exists views. split; [done|]. by apply mapM_Some.
    + right. split; [done|]. apply mapM_None in Hm.
      eapply Exists_impl; [exact Hm|]. intros r Hr. unfold view_of in Hr.
      by destruct (agents d !! agent_id r.2).
Qed.

Lemma whitespace_search_is_no_search_witness :
  all_space (String "009" "  ") = true ∧
  files_preview mock_db (Some (String "009" "  ")) = files_preview mock_db None ∧
  ∃ rows, NoDup rows ∧
    (∀ i f, (i, f) ∈ rows ↔ files mock_db !! i = Some f ∧ status f = "pending") ∧
    ((∃ views, files_preview mock_db None = ok (FileList views) ∧
        Forall2 (λ r v, view_of mock_db r = Some v) rows views) ∨
     (files_preview mock_db None = internal_error ∧
        Exists (λ r, agents mock_db !! agent_id r.2 = None) rows)).
Proof.
  split; [reflexivity|].
  apply (whitespace_search_is_no_search mock_db (String "009" "  ")).
  reflexivity.
Defined.

(** The search of the seeded database for "mat" lists the two files
    whose name or path contains it. *)
Example files_preview_mat :
  files_preview mock_db (Some "mat") =
    ok (FileList
          [mkView 2 "data.mat" "/home/user/data/data.mat" "192.168.1.10"
             "pending" (Some 4);
           mkView 1 "matlab_script.m" "/home/user/documents/matlab_script.m"
             "192.168.1.10" "pending" (Some 3)]).
Proof. vm_compute. reflexivity. Qed.

(** A pending row whose agent is missing makes the handler answer 500. *)
Example files_preview_orphan :
  files_preview (mkDb ∅ (files mock_db)) None = internal_error.
Proof. vm_compute. reflexivity. Qed.
(** * More on [files_preview] *)

Lemma files_preview_ok d arg views :
  files_preview d arg = ok (FileList views) ↔
  mapM (view_of d)
    (map_to_list (pending_query d (strip (default "" arg)))) = Some views.
Proof.
  unfold files_preview, ok, internal_error.
  destruct (mapM _ _) as [l|]; split; intros H; try done; congruence.
Qed.

Lemma mapM_elem_of {A B} (f : A → option B) l k :
  mapM f l = Some k → ∀ y, y ∈ k ↔ ∃ x, x ∈ l ∧ f x = Some y.
Proof.
  intros H%mapM_Some. induction H as [|x y0 l k Hxy _ IH]; intros y.
  - split; [by intros ?%elem_of_nil | by intros (x & ?%elem_of_nil & _)].
  - rewrite elem_of_cons, IH. split.
    + intros [->|(x' & ? & ?)].
      * exists x. split; [apply list_elem_of_here | done].
      * exists x'. split; [by apply list_elem_of_further | done].
    + intros (x' & [->|?]%elem_of_cons & ?); [left; congruence | right; eauto].
Qed.

Lemma view_of_Some d r v :
  view_of d r = Some v ↔
  ∃ a, agents d !! agent_id r.2 = Some a ∧
    v = mkView r.1 (filename r.2) (path r.2) (ip a) (status r.2) (created_at r.2).
Proof.
  unfold view_of. destruct (agents d !! agent_id r.2) as [a|]; simpl.
  - split; [intros [= <-]; by exists a | by intros (? & [= <-] & ->)].
  - split; [done | by intros (? & ? & _)].
Qed.

Lemma files_preview_elem_of d arg views :
  files_preview d arg = ok (FileList views) →
  ∀ v, v ∈ views ↔
    ∃ i f, pending_query d (strip (default "" arg)) !! i = Some f ∧
      view_of d (i, f) = Some v.
Proof.
  intros H%files_preview_ok v. rewrite (mapM_elem_of _ _ _ H). split.
  - intros ([i f] & Hr%elem_of_map_to_list & Hv). eauto.
  - intros (i & f & Hr%elem_of_map_to_list & Hv). eauto.
Qed.


(** X4: when [files_preview] answers 200, the entries have distinct ids,
    and each entry shows a pending row of the file table under its key,
    with the ip of the agent row the file names. *)
Theorem files_preview_entries d arg views :
  files_preview d arg = ok (FileList views) →
  NoDup (v_id <$> views) ∧
  Forall (λ v, ∃ f a, files d !! v_id v = Some f ∧ status f = "pending" ∧
                agents d !! agent_id f = Some a ∧
                v = mkView (v_id v) (filename f) (path f) (ip a) "pending"
                      (created_at f)) views.
Proof.
  intros Hok. split.
  - apply files_preview_ok, mapM_Some in Hok.
    assert (Hids : v_id <$> views =
      (map_to_list (pending_query d (strip (default "" arg)))).*1).
    { induction Hok as [|r v l k Hrv _ IH]; [done|]. rewrite !fmap_cons, IH.
      apply view_of_Some in Hrv as (a & _ & ->). done. }
    rewrite Hids. apply NoDup_fst_map_to_list.
  - apply Forall_forall. intros v Hv.
    apply (files_preview_elem_of _ _ _ Hok) in Hv as (i & f & Hq & Hview).
    apply lookup_pending_query in Hq as (Hf & Hp & _).
    apply view_of_Some in Hview as (a & Ha & ->). simpl in *.
    exists f, a. by rewrite Hp.
Qed.

Lemma files_preview_entries_witness :
  files_preview mock_db (Some "mat") =
    ok (FileList
          [mkView 2 "data.mat" "/home/user/data/data.mat" "192.168.1.10"
             "pending" (Some 4);
           mkView 1 "matlab_script.m" "/home/user/documents/matlab_script.m"
             "192.168.1.10" "pending" (Some 3)]) ∧
  NoDup (v_id <$>
          [mkView 2 "data.mat" "/home/user/data/data.mat" "192.168.1.10"
             "pending" (Some 4);
           mkView 1 "matlab_script.m" "/home/user/documents/matlab_script.m"
             "192.168.1.10" "pending" (Some 3)]) ∧
  Forall (λ v, ∃ f a, files mock_db !! v_id v = Some f ∧ status f = "pending" ∧
                agents mock_db !! agent_id f = Some a ∧
                v = mkView (v_id v) (filename f) (path f) (ip a) "pending"
                      (created_at f))
    [mkView 2 "data.mat" "/home/user/data/data.mat" "192.168.1.10"
       "pending" (Some 4);
     mkView 1 "matlab_script.m" "/home/user/documents/matlab_script.m"
       "192.168.1.10" "pending" (Some 3)].
Proof.
  assert (H : files_preview mock_db (Some "mat") =
    ok (FileList
          [mkView 2 "data.mat" "/home/user/data/data.mat" "192.168.1.10"
             "pending" (Some 4);
           mkView 1 "matlab_script.m" "/home/user/documents/matlab_script.m"
             "192.168.1.10" "pending" (Some 3)])) by (vm_compute; reflexivity).
  split; [exact H|].
  exact (files_preview_entries mock_db (Some "mat") _ H).
Defined.





(** X6: stripping the search string loses no match: a pending row whose
    filename or path contains the search string as it was sent is among
    the entries of a 200 answer. *)
Theorem files_preview_lists_literal_match d s i f views :
  files d !! i = Some f → status f = "pending" →
  occurs_in s (filename f) ∨ occurs_in s (path f) →
  files_preview d (Some s) = ok (FileList views) →
  ∃ v, v ∈ views ∧ v_id v = i ∧ v_filename v = filename f ∧ v_path v = path f.
Proof.
  intros Hf Hp Hocc Hok.
  assert (Hq : pending_query d (strip s) !! i = Some f).
  { apply lookup_pending_query. repeat split; try done.
    destruct Hocc as [H|H]; [left|right];
      by apply like_contains_occurs, (occurs_in_trans _ _ _ (occurs_in_strip s)). }
  assert (Hs : is_Some (view_of d (i, f))).
  { pose proof Hok as Hm%files_preview_ok.
    assert (Hsm : is_Some (mapM (view_of d)
      (map_to_list (pending_query d (strip (default "" (Some s))))))) by eauto.
    apply mapM_is_Some_1 in Hsm. rewrite Forall_forall in Hsm.
    apply (Hsm (i, f)). by apply elem_of_map_to_list. }
  destruct Hs as [v Hv]. exists v. split.
  - apply (files_preview_elem_of _ _ _ Hok). by exists i, f.
  - by apply view_of_Some in Hv as (a & _ & ->).
Qed.

Lemma files_preview_lists_literal_match_witness :
  files mock_db !! 4 =
    Some (mkFileLog "temp.txt" "/tmp/temp.txt" 2 "pending" (Some 6) None) ∧
  status (mkFileLog "temp.txt" "/tmp/temp.txt" 2 "pending" (Some 6) None)
    = "pending" ∧
  (occurs_in "tmp"
     (filename (mkFileLog "temp.txt" "/tmp/temp.txt" 2 "pending" (Some 6) None)) ∨
   occurs_in "tmp"
     (path (mkFileLog "temp.txt" "/tmp/temp.txt" 2 "pending" (Some 6) None))) ∧
  files_preview mock_db (Some "tmp") =
    ok (FileList [mkView 4 "temp.txt" "/tmp/temp.txt" "192.168.1.11"
                    "pending" (Some 6)]) ∧
  ∃ v, v ∈ [mkView 4 "temp.txt" "/tmp/temp.txt" "192.168.1.11"
              "pending" (Some 6)] ∧
    v_id v = 4 ∧
    v_filename v =
      filename (mkFileLog "temp.txt" "/tmp/temp.txt" 2 "pending" (Some 6) None) ∧
    v_path v =
      path (mkFileLog "temp.txt" "/tmp/temp.txt" 2 "pending" (Some 6) None).
Proof.
  assert (H1 : files mock_db !! 4 =
    Some (mkFileLog "temp.txt" "/tmp/temp.txt" 2 "pending" (Some 6) None))
    by (vm_compute; reflexivity).
  assert (H2 : status (mkFileLog "temp.txt" "/tmp/temp.txt" 2 "pending" (Some 6) None)
    = "pending") by reflexivity.
  assert (H3 : occurs_in "tmp"
     (filename (mkFileLog "temp.txt" "/tmp/temp.txt" 2 "pending" (Some 6) None)) ∨
   occurs_in "tmp"
     (path (mkFileLog "temp.txt" "/tmp/temp.txt" 2 "pending" (Some 6) None))).
  { right. exists "/", "/temp.txt". reflexivity. }
  assert (H4 : files_preview mock_db (Some "tmp") =
    ok (FileList [mkView 4 "temp.txt" "/tmp/temp.txt" "192.168.1.11"
                    "pending" (Some 6)])) by (vm_compute; reflexivity).
  repeat (split; [assumption|]).
  exact (files_preview_lists_literal_match mock_db "tmp" 4 _ _ H1 H2 H3 H4).
Defined.

(** * More on approve, reject and their sequences *)


Lemma do_call_agents d c : agents (do_call d c) = agents d.
Proof.
  destruct c as [now data|data]; simpl.
  - apply (handlers_keep_agents now d data).
  - apply (handlers_keep_agents 0 d data).
Qed.

Lemma run_agents d cs : agents (run d cs) = agents d.
Proof.
  revert d. induction cs as [|c cs IH]; intros d; simpl; [done|].
  by rewrite IH, do_call_agents.
Qed.

Lemma do_call_files_lookup d c i :
  files (do_call d c) !! i =
    (λ f, if bool_decide (i ∈ updates c) then set_by c f else f) <$> files d !! i.
Proof.
  destruct c; simpl; [apply approve_deletion_lookup | apply reject_deletion_lookup].
Qed.


Lemma run_lookup_is_Some d cs i :
  is_Some (files (run d cs) !! i) ↔ is_Some (files d !! i).
Proof.
  revert d. induction cs as [|c cs IH]; intros d; simpl; [done|].
  rewrite IH, do_call_files_lookup. by rewrite fmap_is_Some.
Qed.













Lemma do_call_frame d c i f :
  files d !! i = Some f →
  ∃ f', files (do_call d c) !! i = Some f' ∧
    filename f' = filename f ∧ path f' = path f ∧
    agent_id f' = agent_id f ∧ created_at f' = created_at f ∧
    (status f' = status f ∨ status f' = "approved" ∨ status f' = "rejected") ∧
    (status f' = "approved" → is_Some (approved_at f) → is_Some (approved_at f')) ∧
    (status f' = "approved" → status f ≠ "approved" → is_Some (approved_at f')) ∧
    (status f' = "pending" → status f = "pending").
Proof.
  intros Hf. rewrite do_call_files_lookup, Hf. simpl.
  eexists; split; [done|]. case_bool_decide; [|naive_solver].
  destruct c; simpl; naive_solver.
Qed.

(** X12: a sequence of approve and reject calls never touches the agent
    table, never adds or removes a file row, and never changes the
    filename, path, agent_id or created_at of a row. *)
Theorem run_frame d cs i :
  agents (run d cs) = agents d ∧
  match files d !! i with
  | None => files (run d cs) !! i = None
  | Some f =>
      ∃ f', files (run d cs) !! i = Some f' ∧
        filename f' = filename f ∧ path f' = path f ∧
        agent_id f' = agent_id f ∧ created_at f' = created_at f
  end.
Proof.
  split; [apply run_agents|].
  destruct (files d !! i) as [f|] eqn:Hf.
  - revert d f Hf. induction cs as [|c cs IH]; intros d f Hf; simpl.
    + by exists f.
    + destruct (do_call_frame d c i f Hf) as (f1 & Hf1 & E1 & E2 & E3 & E4 & _).
      destruct (IH _ _ Hf1) as (f' & Hf' & ? & ? & ? & ?).
      exists f'. split; [done|]. repeat split; congruence.
  - apply eq_None_not_Some. rewrite run_lookup_is_Some, Hf. by intros [??].
Qed.

Lemma do_call_statuses_known d c : statuses_known d → statuses_known (do_call d c).
Proof.
  unfold statuses_known. intros Hd i f'. rewrite do_call_files_lookup.
  destruct (files d !! i) as [f|] eqn:Hf; simpl; [|done]. intros [= <-].
  case_bool_decide; [destruct c; simpl; tauto | by apply (Hd i)].
Qed.

(** X13: when every file row has one of the statuses pending, approved
    and rejected, this is still so after any sequence of approve and
    reject calls. *)
Theorem run_statuses_known d cs : statuses_known d → statuses_known (run d cs).
Proof.
  revert d. induction cs as [|c cs IH]; intros d Hd; simpl; [done|].
  by apply IH, do_call_statuses_known.
Qed.

Lemma run_statuses_known_witness :
  statuses_known mock_db ∧
  statuses_known (run mock_db [Approve 100 (FileIds [1; 9]); Reject (FileIds [1; 2])]).
Proof.
  assert (H : statuses_known mock_db).
  { unfold statuses_known. eapply bool_decide_unpack. vm_compute. exact I. }
  split; [exact H|].
  exact (run_statuses_known mock_db
           [Approve 100 (FileIds [1; 9]); Reject (FileIds [1; 2])] H).
Defined.










(** * [clients_status] *)

Lemma agent_view_ids (l : list (Z * Agent)) : a_id <$> (agent_view_of <$> l) = l.*1.
Proof. induction l as [|r l IH]; [done|]. by rewrite !fmap_cons, IH. Qed.

(** X17: [clients_status] answers 200 with one entry per agent row: the
    entries have distinct ids, there are as many as agent rows, and an
    entry is in the list exactly when it shows the row of its id. *)
Theorem clients_status_lists_agents d :
  (clients_status d).1 = 200 ∧
  NoDup (a_id <$> (clients_status d).2) ∧
  length (clients_status d).2 = size (agents d) ∧
  ∀ v, v ∈ (clients_status d).2 ↔
    ∃ a, agents d !! a_id v = Some a ∧
      v = mkAgentView (a_id v) (ip a) (agent_status a) (last_seen a).
Proof.
  unfold clients_status. simpl. repeat split.
  - rewrite agent_view_ids. apply NoDup_fst_map_to_list.
  - by rewrite length_fmap, length_map_to_list.
  - intros ([i a] & -> & Hr%elem_of_map_to_list)%list_elem_of_fmap.
    by exists a.
  - intros (a & Ha & ->). apply list_elem_of_fmap.
    exists (a_id v, a). split; [done|]. by apply elem_of_map_to_list.
Qed.

(** X18: the answer of [clients_status] is the same after any sequence
    of approve and reject calls. *)
Theorem clients_status_unchanged d cs :
  clients_status (run d cs) = clients_status d.
Proof. unfold clients_status. by rewrite run_agents. Qed.

(** X19: the agent_ip of an entry of [files_preview] is the ip that
    [clients_status] shows for the agent the file row names. *)
Theorem files_preview_ip_in_clients_status d arg views v :
  files_preview d arg = ok (FileList views) → v ∈ views →
  ∃ f av, files d !! v_id v = Some f ∧ av ∈ (clients_status d).2 ∧
    a_id av = agent_id f ∧ a_ip av = v_agent_ip v.
Proof.
  intros Hok Hv.
  apply (files_preview_elem_of _ _ _ Hok) in Hv as (i & f & Hq & Hview).
  apply lookup_pending_query in Hq as (Hf & _).
  apply view_of_Some in Hview as (a & Ha & ->). simpl in *.
  exists f, (agent_view_of (agent_id f, a)). repeat split; [done|].
  apply list_elem_of_fmap. exists (agent_id f, a).
  split; [done|]. by apply elem_of_map_to_list.
Qed.

Lemma files_preview_ip_in_clients_status_witness :
  files_preview mock_db (Some "tmp") =
    ok (FileList [mkView 4 "temp.txt" "/tmp/temp.txt" "192.168.1.11"
                    "pending" (Some 6)]) ∧
  mkView 4 "temp.txt" "/tmp/temp.txt" "192.168.1.11" "pending" (Some 6)
    ∈ [mkView 4 "temp.txt" "/tmp/temp.txt" "192.168.1.11" "pending" (Some 6)] ∧
  ∃ f av,
    files mock_db !!
      v_id (mkView 4 "temp.txt" "/tmp/temp.txt" "192.168.1.11" "pending" (Some 6))
      = Some f ∧
    av ∈ (clients_status mock_db).2 ∧ a_id av = agent_id f ∧
    a_ip av =
      v_agent_ip (mkView 4 "temp.txt" "/tmp/temp.txt" "192.168.1.11" "pending"
                    (Some 6)).
Proof.
  assert (H1 : files_preview mock_db (Some "tmp") =
    ok (FileList [mkView 4 "temp.txt" "/tmp/temp.txt" "192.168.1.11"
                    "pending" (Some 6)])) by (vm_compute; reflexivity).
  assert (H2 : mkView 4 "temp.txt" "/tmp/temp.txt" "192.168.1.11" "pending" (Some 6)
    ∈ [mkView 4 "temp.txt" "/tmp/temp.txt" "192.168.1.11" "pending" (Some 6)])
    by apply list_elem_of_here.
  split; [exact H1|]. split; [exact H2|].
  exact (files_preview_ip_in_clients_status mock_db (Some "tmp") _ _ H1 H2).
Defined.

(** * [submit_instruction] *)

(** X20: [submit_instruction] answers 200 exactly when the instruction is
    a string with a character that is not white space, and then logs the
    stripped instruction; it answers 500, with one error record logged,
    exactly when the body is no JSON, is a JSON value on which the key
    test or the subscript raises, or holds an instruction that is not a
    string; it answers 400 in every other case. *)
Theorem submit_instruction_codes data :
  (code (submit_instruction data).1 = 200 ↔
   ∃ s, data = Instruction s ∧ all_space s = false ∧
     (submit_instruction data).2 =
       [LogInfo ("Instruction submitted: " +:+ strip s)]) ∧
  (code (submit_instruction data).1 = 500 ↔
   data = NoInstructionJson ∨ data = InstructionNotContainer ∨
   data = InstructionNotSubscriptable ∨ data = InstructionNotStr) ∧
  (code (submit_instruction data).1 = 500 →
   ∃ e, (submit_instruction data).2 = [LogError "Error submitting instruction: " e]) ∧
  (code (submit_instruction data).1 = 200 ∨
   code (submit_instruction data).1 = 400 ∨
   code (submit_instruction data).1 = 500).
Proof.
  destruct data as [| | | | | |s]; simpl.
  1-6: repeat split; try done; try (by intros (? & ? & _));
    try (by intros [?|[?|[?|?]]]); eauto 10.
  case_decide as Hs; simpl.
  - repeat split; try done; try (by intros [?|[?|[?|?]]]); auto.
    intros (s' & [= <-] & Hsp & _).
    apply strip_empty_all_space in Hs. congruence.
  - repeat split; try done; try (by intros [?|[?|[?|?]]]); auto.
    intros _. exists s. repeat split.
    destruct (all_space s) eqn:Hsp; [|done].
    by apply strip_all_space in Hsp.
Qed.

(** * Creating a file row and [files_preview] *)




(** * White space around the input *)



(** X2: white space around the input does not matter: [files_preview]
    and [submit_instruction] answer the stripped string as they answer
    the string itself. *)
Theorem stripped_input_same_answer d s :
  files_preview d (Some (strip s)) = files_preview d (Some s) ∧
  submit_instruction (Instruction (strip s)) = submit_instruction (Instruction s).
Proof.
  unfold files_preview, submit_instruction. simpl.
  by rewrite strip_idempotent.
Qed.
